(** * stargazer backend: the conversational session cache of [backend/app.py]

    A shallow embedding of the request handlers of [backend/app.py]
    ([chat_gemini], [chat_history_list], [summarize], [ratelimit_handler])
    as functions in a state, trace and exception monad, followed by the
    properties of the handlers. *)

From Stdlib Require Import ZArith Floats.PrimFloat.
From stdpp Require Import gmap strings list pretty.

Set Warnings "-register-all".
Local Open Scope string_scope.
Local Open Scope list_scope.
Local Open Scope Z_scope.

(** ** Python values that reach the handlers *)

(** Python [bytes]. *)
Abbreviation bytes := (list Byte.byte).

(** A parsed JSON document, as [request.get_json()] hands it to the view
    (and as a view hands it back): [None], [bool], [int], [float], [str],
    [list] and [dict].  A [dict] is kept as the list of its items. *)
Inductive json : Type :=
| JNull
| JBool (b : bool)
| JInt (n : Z)
| JFloat (f : float)
| JStr (s : string)
| JArr (xs : list json)
| JObj (items : list (string * json)).

(** Python truth value of a parsed JSON document ([not v] is its negation). *)
Definition truthy (v : json) : bool :=
  match v with
  | JNull => false
  | JBool b => b
  | JInt n => negb (n =? 0)
  | JFloat f => negb (PrimFloat.eqb f 0%float)
  | JStr s => negb (String.eqb s "")
  | JArr xs => match xs with [] => false | _ => true end
  | JObj items => match items with [] => false | _ => true end
  end.

(** [d.get(key)] on the items of a dict: the value bound to [key], else
    [None]. *)
Fixpoint items_get (items : list (string * json)) (key : string) : json :=
  match items with
  | [] => JNull
  | (k, v) :: rest => if String.eqb k key then v else items_get rest key
  end.

(** What [redis_client.get] hands back: [None], [bytes], or [str] when the
    client decodes responses. *)
Inductive pyval : Type :=
| PNone
| PBytes (b : bytes)
| PStr (s : string).

Definition py_truthy (v : pyval) : bool :=
  match v with
  | PNone => false
  | PBytes b => match b with [] => false | _ => true end
  | PStr s => negb (String.eqb s "")
  end.

(** One turn of a conversation: [message.role] and [message.parts], each
    part with its [text]. *)
Record Part : Type := { text : string }.
Record Content : Type := { role : string; parts : list Part }.
Abbreviation History := (list Content).

(** ** Exceptions *)

(** The exceptions the handlers meet.  All of them derive from Python's
    [Exception] (werkzeug's [HTTPException], raised by [abort], included),
    so an [except Exception] clause catches every one. *)
Inductive exn : Type :=
| HTTPException (code : Z)
| StopCandidateException
| UnicodeDecodeError (object : bytes)
| AttributeError
| TypeError
| OtherError (name : string).

Inductive result (A : Type) : Type :=
| Ok (a : A)
| Raise (e : exn).
Arguments Ok {A} a.
Arguments Raise {A} e.

(** ** [datetime.timedelta] *)

(** A normalised [timedelta]: [0 <= seconds < 86400] and
    [0 <= microseconds < 1000000]; [days] carries the sign. *)
Record timedelta : Type :=
  { days : Z; seconds : Z; microseconds : Z }.

Definition US_PER_SECOND : Z := 1000000.
Definition SECONDS_PER_DAY : Z := 86400.

(** [timedelta(microseconds=us)], normalised as Python does (floor
    division). *)
Definition timedelta_of_us (us : Z) : timedelta :=
  {| days := us / (SECONDS_PER_DAY * US_PER_SECOND);
     seconds := (us mod (SECONDS_PER_DAY * US_PER_SECOND)) / US_PER_SECOND;
     microseconds := us mod US_PER_SECOND |}.

Definition timedelta_hours (h : Z) : timedelta :=
  timedelta_of_us (h * 3600 * US_PER_SECOND).

(** [int(td.total_seconds())] for a non-negative [td], which is what the
    cache client sends as the expiry of [setex]. *)
Definition whole_seconds (td : timedelta) : Z :=
  days td * SECONDS_PER_DAY + seconds td.

Definition HOUR_TIMEDELTA : timedelta := timedelta_hours 1.

(** ** The cache client's text decoding

    When the client is configured to decode responses it runs
    [value.decode("utf-8")] on the stored bytes; [utf8_valid] says whether
    that succeeds (well-formed UTF-8, no overlong forms, no surrogates,
    nothing above U+10FFFF). *)

Definition in_range (lo hi b : N) : bool := ((lo <=? b) && (b <=? hi))%N.

Fixpoint utf8_valid_N (bs : list N) : bool :=
  match bs with
  | [] => true
  | b0 :: r0 =>
    if (b0 <=? 127)%N then utf8_valid_N r0
    else if in_range 194 223 b0 then
      match r0 with
      | b1 :: r1 => in_range 128 191 b1 && utf8_valid_N r1
      | _ => false
      end
    else if in_range 224 239 b0 then
      match r0 with
      | b1 :: b2 :: r2 =>
        in_range (if (b0 =? 224)%N then 160 else 128)
                 (if (b0 =? 237)%N then 159 else 191) b1
        && in_range 128 191 b2 && utf8_valid_N r2
      | _ => false
      end
    else if in_range 240 244 b0 then
      match r0 with
      | b1 :: b2 :: b3 :: r3 =>
        in_range (if (b0 =? 240)%N then 144 else 128)
                 (if (b0 =? 244)%N then 143 else 191) b1
        && in_range 128 191 b2 && in_range 128 191 b3 && utf8_valid_N r3
      | _ => false
      end
    else false
  end.

Definition utf8_valid (raw : bytes) : bool :=
  utf8_valid_N (map Byte.to_N raw).

(** ** State, trace and the handler monad *)

(** A cache entry: the stored bytes and the instant (in seconds) at which
    the store drops it. *)
Record CacheEntry : Type := { payload : bytes; expires_at : Z }.

(** What a request can read and change: the visitor's session (Flask's
    [session] dict) and the shared cache. *)
Record State : Type :=
  { session : gmap string string;
    cache : gmap string CacheEntry }.

(** The calls a handler makes, in the order it makes them, each with its
    outcome. *)
Inductive event : Type :=
| EvCacheGet (key : string) (r : result pyval)
| EvCacheSetex (key : string) (ttl : Z) (value : bytes) (r : result unit)
| EvCreateChat (h : option History) (r : result (string * History))
| EvSendMessage (h : History) (q : json) (r : result (string * History))
| EvPickleLoads (v : pyval) (r : result History)
| EvPickleDumps (h : History) (r : result bytes)
| EvSessionSet (field value : string)
| EvLogException (e : exn).

(** A computation reads and updates the state, appends to the trace, and
    returns or raises.  The state and trace reached when an exception is
    raised are kept: Python does not undo side effects while unwinding. *)
Definition M (A : Type) : Type := State → result A * State * list event.

#[global] Instance M_ret : MRet M := λ A a st, (Ok a, st, []).

#[global] Instance M_bind : MBind M := λ A B k m st,
  match m st with
  | (Ok a, st1, t1) => let '(r, st2, t2) := k a st1 in (r, st2, t1 ++ t2)
  | (Raise e, st1, t1) => (Raise e, st1, t1)
  end.

Definition raise {A} (e : exn) : M A := λ st, (Raise e, st, []).

(** [try: m  except ...:] where [handler e] is [Some k] when one of the
    except clauses matches [e] and [k] is its body. *)
Definition try_except {A} (m : M A) (handler : exn → option (M A)) : M A :=
  λ st,
  match m st with
  | (Ok a, st1, t1) => (Ok a, st1, t1)
  | (Raise e, st1, t1) =>
    match handler e with
    | Some k => let '(r, st2, t2) := k st1 in (r, st2, t1 ++ t2)
    | None => (Raise e, st1, t1)
    end
  end.

Definition emit (ev : event) : M unit := λ st, (Ok (), st, [ev]).

(** Lifts an outside call whose outcome [r] is already known, recording it. *)
Definition call {A} (ev : result A → event) (r : result A) : M A :=
  λ st, (r, st, [ev r]).

(** ** The world outside [app.py]

    What one request meets outside the module: the chat backend
    ([apis.chatbot.create_chat] and the chat handle's [send_message]), the
    [pickle] codec, the configuration of the cache client and whether the
    cache connection fails.  A chat handle is represented by its
    [history]. *)
Record Env : Type :=
  { decode_responses : bool;
    redis_get_fault : option string;
    redis_setex_fault : option string;
    backend_create_chat : option History → result (string * History);
    backend_send_message : History → json → result (string * History);
    codec_loads : bytes → result History;
    codec_dumps : History → result bytes;
    py_str : json → string }.

(** *** Flask *)

(** The body of a request as [request.get_json()] sees it. *)
Inductive body : Type :=
| NoJsonBody
| MalformedJson
| JsonBody (j : json).

Record request : Type := { req_body : body }.

(** [abort(code)] raises werkzeug's [HTTPException] for [code]. *)
Definition abort {A} (code : Z) : M A := raise (HTTPException code).

(** [request.get_json()]: [None] without a JSON body (a Flask that
    raises the 415 itself there ends in the same [HTTPException] as the
    [abort(415)] that follows), a 400 [HTTPException] when the body does
    not parse. *)
Definition get_json (req : request) : M json :=
  match req_body req with
  | NoJsonBody => mret JNull
  | MalformedJson => abort 400
  | JsonBody j => mret j
  end.

(** [rjson.get(key)]: only a dict has [get]. *)
Definition dict_get (rjson : json) (key : string) : M json :=
  match rjson with
  | JObj items => mret (items_get items key)
  | _ => raise AttributeError
  end.

Definition session_contains (field : string) : M bool :=
  λ st, (Ok (if session st !! field is Some _ then true else false), st, []).

Definition session_getitem (field : string) : M string :=
  λ st,
  match session st !! field with
  | Some v => (Ok v, st, [])
  | None => (Raise (OtherError "KeyError"), st, [])
  end.

Definition session_setitem (field value : string) : M unit :=
  λ st, (Ok (),
         {| session := <[field := value]> (session st); cache := cache st |},
         [EvSessionSet field value]).

Definition logging_exception (e : exn) : M unit := emit (EvLogException e).

(** *** The cache client *)

(** Modelled from the spec: the client-level decoding step of the cache
    client ([apis.cache] is not part of [app.py]).  A client that decodes
    responses hands back text, or raises the decoding error with the raw
    bytes attached; one that does not hands back the bytes. *)
Definition client_decode (env : Env) (raw : bytes) : result pyval :=
  if decode_responses env then
    if utf8_valid raw then Ok (PStr (String.string_of_list_byte raw))
    else Raise (UnicodeDecodeError raw)
  else Ok (PBytes raw).

(** Modelled from the spec: what [get] of the cache client finds under
    [key] at instant [now]: a failure of the connection, [None] for a key
    that is absent or whose time to live has run out, else the decoded
    value. *)
Definition cache_lookup (env : Env) (now : Z) (c : gmap string CacheEntry)
    (key : string) : result pyval :=
  match redis_get_fault env with
  | Some name => Raise (OtherError name)
  | None =>
    match c !! key with
    | Some e =>
      if now <? expires_at e then client_decode env (payload e) else Ok PNone
    | None => Ok PNone
    end
  end.

(** Modelled from the spec: [redis_client.get] of the cache client built by
    [apis.cache.redis_conn], which is not part of [app.py].  It returns the
    stored value or [None] when the key is absent or its time to live has
    run out, never changes the entry, and passes on a decoding error of the
    client with the raw bytes attached. *)
Definition redis_get (env : Env) (now : Z) (key : string) : M pyval :=
  λ st, let r := cache_lookup env now (cache st) key in
        (r, st, [EvCacheGet key r]).

(** Modelled from the spec: [redis_client.setex] of the same client.  It
    overwrites the value under [key] and makes the entry expire [ttl] after
    the write; when the connection fails nothing is written. *)
Definition redis_setex (env : Env) (now : Z) (key : string) (ttl : timedelta)
    (value : bytes) : M unit :=
  λ st,
  match redis_setex_fault env with
  | Some name =>
    let r := Raise (OtherError name) in
    (r, st, [EvCacheSetex key (whole_seconds ttl) value r])
  | None =>
    (Ok (),
     {| session := session st;
        cache := <[key := {| payload := value;
                             expires_at := now + whole_seconds ttl |}]>
                   (cache st) |},
     [EvCacheSetex key (whole_seconds ttl) value (Ok ())])
  end.

(** *** The chat backend and the codec *)

Definition create_chat (env : Env) (h : option History)
    : M (string * History) :=
  call (EvCreateChat h) (backend_create_chat env h).

(** [chat.send_message(query).text], with the handle's history afterwards. *)
Definition send_message (env : Env) (chat : History) (query : json)
    : M (string * History) :=
  call (EvSendMessage chat query) (backend_send_message env chat query).

(** [pickle.loads] wants a bytes-like object. *)
Definition loads_outcome (env : Env) (v : pyval) : result History :=
  match v with
  | PBytes b => codec_loads env b
  | _ => Raise TypeError
  end.

Definition pickle_loads (env : Env) (v : pyval) : M History :=
  call (EvPickleLoads v) (loads_outcome env v).

Definition pickle_dumps (env : Env) (h : History) : M bytes :=
  call (EvPickleDumps h) (codec_dumps env h).

(** ** The handlers of [app.py] *)

Definition SESSION_EXPIRED : json :=
  JObj [("message", JStr "Your session has expired. Please try again later.")].

Definition CANNOT_ANSWER : json :=
  JObj [("message", JStr "I cannot answer that.")].

Definition OUT_OF_SERVICE : json :=
  JObj [("message",
         JStr "It seems we're out of service at the moment, try again later.")].

Definition SUMMARIZE_ERROR : json :=
  JObj [("error", JStr "an internal server error occured, try again later")].

(** The clause [except UnicodeDecodeError as e: pickled_chat_history =
    e.object] around the cache fetch. *)
Definition unicode_fallback (e : exn) : option (M pyval) :=
  match e with
  | UnicodeDecodeError object => Some (mret (PBytes object))
  | _ => None
  end.

(** Lines 142-145 of [chat_gemini] and 175-178 of [chat_history_list]. *)
Definition fetch_pickled (env : Env) (now : Z) (chatID : string) : M pyval :=
  try_except (redis_get env now chatID) unicode_fallback.

(** Lines 155-159 of [chat_gemini]: both branches of the session test fall
    through to them with their [chatID] and [chat]. *)
Definition send_and_persist (env : Env) (now : Z) (chatID : string)
    (chat : History) (query : json) : M json :=
  '(resp, chat') ← send_message env chat query;
  session_setitem "chatID" chatID;;
  pickled ← pickle_dumps env chat';
  redis_setex env now chatID HOUR_TIMEDELTA pickled;;
  mret (JObj [("message", JStr resp)]).

(** Lines 138-159 of [chat_gemini]: resume the conversation the session
    points at, or start a new one, and answer [query]. *)
Definition resume_or_start (env : Env) (now : Z) (query : json) : M json :=
  has_chat ← session_contains "chatID";
  if has_chat : bool then
    chatID ← session_getitem "chatID";
    pickled_chat_history ← fetch_pickled env now chatID;
    if negb (py_truthy pickled_chat_history) then mret SESSION_EXPIRED else
    chat_history ← pickle_loads env pickled_chat_history;
    '(_, chat) ← create_chat env (Some chat_history);
    send_and_persist env now chatID chat query
  else
    '(chatID, chat) ← create_chat env None;
    send_and_persist env now chatID chat query.

(** The body of the [try] block of [chat_gemini]. *)
Definition chat_gemini_try (env : Env) (now : Z) (req : request) : M json :=
  rjson ← get_json req;
  if negb (truthy rjson) then abort 415 else
  query ← dict_get rjson "message";
  if negb (truthy query) then abort 400 else
  resume_or_start env now query.

(** The two except clauses of [chat_gemini]. *)
Definition chat_gemini_except (e : exn) : option (M json) :=
  Some match e with
       | StopCandidateException => mret CANNOT_ANSWER
       | _ => logging_exception e;; mret OUT_OF_SERVICE
       end.

(** [POST /api/chat/send], inside the rate limiter. *)
Definition chat_gemini (env : Env) (now : Z) (req : request) : M json :=
  try_except (chat_gemini_try env now req) chat_gemini_except.

(** One entry of the listing: the role and the parts' texts joined by a
    space. *)
Definition render_message (message : Content) : json :=
  JObj [("role", JStr (role message));
        ("content", JStr (String.concat " " (map text (parts message))))].

(** [GET /api/chat/list]. *)
Definition chat_history_list (env : Env) (now : Z) : M json :=
  has_chat ← session_contains "chatID";
  if has_chat : bool then
    chatID ← session_getitem "chatID";
    pickled_chat_history ← fetch_pickled env now chatID;
    if negb (py_truthy pickled_chat_history) then mret (JArr []) else
    chat_history ← pickle_loads env pickled_chat_history;
    mret (JArr (map render_message chat_history))
  else mret (JArr []).

Definition summarize_try (env : Env) (req : request) : M json :=
  rjson ← get_json req;
  if negb (truthy rjson) then abort 415 else
  url ← dict_get rjson "url";
  if negb (truthy url) then abort 400 else
  '(_, chat) ← create_chat env None;
  '(summ, _) ← send_message env chat
     (JStr ("Please summarize this URL in 50 words: " +:+ py_str env url));
  mret (JObj [("summary", JStr summ)]).

Definition summarize_except (e : exn) : option (M json) :=
  Some (logging_exception e;; mret SUMMARIZE_ERROR).

(** [POST /api/summarize]. *)
Definition summarize (env : Env) (req : request) : M json :=
  try_except (summarize_try env req) summarize_except.

(** *** From a view's outcome to the HTTP response *)

Inductive response : Type :=
| JsonResponse (status : Z) (content : json)
| ErrorPage (status : Z).

(** Flask turns a returned dict or list into a 200 JSON response, an
    escaped [HTTPException] into the error response of its code, and any
    other escaped exception into the generic 500 page. *)
Definition make_response (r : result json) : response :=
  match r with
  | Ok j => JsonResponse 200 j
  | Raise (HTTPException code) => ErrorPage code
  | Raise _ => ErrorPage 500
  end.

(** *** The 429 handler *)

(** [(reset - now).seconds] for two instants given in microseconds. *)
Definition retry_delta (now reset : Z) : Z :=
  seconds (timedelta_of_us (reset - now)).

(** [ratelimit_handler]: [now] is [datetime.now()] and [reset] is
    [datetime.fromtimestamp(limiter.current_limit.reset_at)], both in
    microseconds. *)
Definition ratelimit_handler (now reset : Z) : response :=
  let delta := retry_delta now reset in
  JsonResponse 429
    (JObj [("error",
            JStr ("rate limit exceeded, please try again after "
                  +:+ pretty delta +:+ " seconds"))]).

(** *** The two conversational endpoints *)

Inductive endpoint : Type :=
| ChatSend (req : request)
| ChatList.

Definition serve (env : Env) (now : Z) (ep : endpoint) : M json :=
  match ep with
  | ChatSend req => chat_gemini env now req
  | ChatList => chat_history_list env now
  end.

(** ** Runs *)

Definition outcome {A} (run : result A * State * list event) : result A :=
  run.1.1.
Definition final_state {A} (run : result A * State * list event) : State :=
  run.1.2.
Definition trace {A} (run : result A * State * list event) : list event :=
  run.2.

(** The session after [session["chatID"] = chatID]. *)
Definition bind_token (chatID : string) (st : State) : State :=
  {| session := <["chatID" := chatID]> (session st); cache := cache st |}.

(** The cache after a [setex] of [value] under [chatID] at [now] with the
    one-hour window. *)
Definition store_history (now : Z) (chatID : string) (value : bytes)
    (st : State) : State :=
  {| session := session st;
     cache := <[chatID := {| payload := value; expires_at := now + 3600 |}]>
                (cache st) |}.

(** What the fetch of lines 142-145 binds to [pickled_chat_history], given
    the outcome of [redis_client.get]. *)
Definition as_fetched (r : result pyval) : result pyval :=
  match r with
  | Raise (UnicodeDecodeError object) => Ok (PBytes object)
  | _ => r
  end.

(** The ways through lines 155-159, as runs of [send_and_persist]. *)
Inductive persist_run (env : Env) (now : Z) (chatID : string)
    (chat : History) (query : json) (st : State)
    : result json * State * list event → Prop :=
| persist_send_fails e :
    backend_send_message env chat query = Raise e →
    persist_run env now chatID chat query st
      (Raise e, st, [EvSendMessage chat query (Raise e)])
| persist_dumps_fails resp chat' e :
    backend_send_message env chat query = Ok (resp, chat') →
    codec_dumps env chat' = Raise e →
    persist_run env now chatID chat query st
      (Raise e, bind_token chatID st,
       [EvSendMessage chat query (Ok (resp, chat'));
        EvSessionSet "chatID" chatID;
        EvPickleDumps chat' (Raise e)])
| persist_setex_fails resp chat' value name :
    backend_send_message env chat query = Ok (resp, chat') →
    codec_dumps env chat' = Ok value →
    redis_setex_fault env = Some name →
    persist_run env now chatID chat query st
      (Raise (OtherError name), bind_token chatID st,
       [EvSendMessage chat query (Ok (resp, chat'));
        EvSessionSet "chatID" chatID;
        EvPickleDumps chat' (Ok value);
        EvCacheSetex chatID 3600 value (Raise (OtherError name))])
| persist_done resp chat' value :
    backend_send_message env chat query = Ok (resp, chat') →
    codec_dumps env chat' = Ok value →
    redis_setex_fault env = None →
    persist_run env now chatID chat query st
      (Ok (JObj [("message", JStr resp)]),
       store_history now chatID value (bind_token chatID st),
       [EvSendMessage chat query (Ok (resp, chat'));
        EvSessionSet "chatID" chatID;
        EvPickleDumps chat' (Ok value);
        EvCacheSetex chatID 3600 value (Ok ())]).

(** The ways through the [try] block of [chat_gemini]. *)
Inductive try_run (env : Env) (now : Z) (st : State)
    : result json * State * list event → Prop :=
| try_invalid e :
    e = HTTPException 400 ∨ e = HTTPException 415 ∨ e = AttributeError →
    try_run env now st (Raise e, st, [])
| try_start_fails e :
    session st !! "chatID" = None →
    backend_create_chat env None = Raise e →
    try_run env now st (Raise e, st, [EvCreateChat None (Raise e)])
| try_start query chatID chat r st' t :
    truthy query = true →
    session st !! "chatID" = None →
    backend_create_chat env None = Ok (chatID, chat) →
    persist_run env now chatID chat query st (r, st', t) →
    try_run env now st
      (r, st', EvCreateChat None (Ok (chatID, chat)) :: t)
| try_fetch_fails chatID e :
    session st !! "chatID" = Some chatID →
    cache_lookup env now (cache st) chatID = Raise e →
    as_fetched (Raise e) = Raise e →
    try_run env now st (Raise e, st, [EvCacheGet chatID (Raise e)])
| try_expired chatID r pickled :
    session st !! "chatID" = Some chatID →
    cache_lookup env now (cache st) chatID = r →
    as_fetched r = Ok pickled →
    py_truthy pickled = false →
    try_run env now st (Ok SESSION_EXPIRED, st, [EvCacheGet chatID r])
| try_loads_fails chatID r pickled e :
    session st !! "chatID" = Some chatID →
    cache_lookup env now (cache st) chatID = r →
    as_fetched r = Ok pickled →
    py_truthy pickled = true →
    loads_outcome env pickled = Raise e →
    try_run env now st
      (Raise e, st, [EvCacheGet chatID r; EvPickleLoads pickled (Raise e)])
| try_resume_fails chatID r pickled h e :
    session st !! "chatID" = Some chatID →
    cache_lookup env now (cache st) chatID = r →
    as_fetched r = Ok pickled →
    py_truthy pickled = true →
    loads_outcome env pickled = Ok h →
    backend_create_chat env (Some h) = Raise e →
    try_run env now st
      (Raise e, st,
       [EvCacheGet chatID r; EvPickleLoads pickled (Ok h);
        EvCreateChat (Some h) (Raise e)])
| try_resume query chatID r pickled h fresh chat res st' t :
    truthy query = true →
    session st !! "chatID" = Some chatID →
    cache_lookup env now (cache st) chatID = r →
    as_fetched r = Ok pickled →
    py_truthy pickled = true →
    loads_outcome env pickled = Ok h →
    backend_create_chat env (Some h) = Ok (fresh, chat) →
    persist_run env now chatID chat query st (res, st', t) →
    try_run env now st
      (res, st',
       EvCacheGet chatID r :: EvPickleLoads pickled (Ok h)
       :: EvCreateChat (Some h) (Ok (fresh, chat)) :: t).

(** What the except clauses of [chat_gemini] make of the [try] block's
    run. *)
Definition caught (run : result json * State * list event)
    : result json * State * list event :=
  match run with
  | (Ok j, st, t) => (Ok j, st, t)
  | (Raise StopCandidateException, st, t) => (Ok CANNOT_ANSWER, st, t)
  | (Raise e, st, t) => (Ok OUT_OF_SERVICE, st, t ++ [EvLogException e])
  end.

(** The ways through [chat_history_list]. *)
Inductive list_run (env : Env) (now : Z) (st : State)
    : result json * State * list event → Prop :=
| list_no_chat :
    session st !! "chatID" = None →
    list_run env now st (Ok (JArr []), st, [])
| list_fetch_fails chatID e :
    session st !! "chatID" = Some chatID →
    cache_lookup env now (cache st) chatID = Raise e →
    as_fetched (Raise e) = Raise e →
    list_run env now st (Raise e, st, [EvCacheGet chatID (Raise e)])
| list_absent chatID r pickled :
    session st !! "chatID" = Some chatID →
    cache_lookup env now (cache st) chatID = r →
    as_fetched r = Ok pickled →
    py_truthy pickled = false →
    list_run env now st (Ok (JArr []), st, [EvCacheGet chatID r])
| list_loads_fails chatID r pickled e :
    session st !! "chatID" = Some chatID →
    cache_lookup env now (cache st) chatID = r →
    as_fetched r = Ok pickled →
    py_truthy pickled = true →
    loads_outcome env pickled = Raise e →
    list_run env now st
      (Raise e, st, [EvCacheGet chatID r; EvPickleLoads pickled (Raise e)])
| list_rendered chatID r pickled h :
    session st !! "chatID" = Some chatID →
    cache_lookup env now (cache st) chatID = r →
    as_fetched r = Ok pickled →
    py_truthy pickled = true →
    loads_outcome env pickled = Ok h →
    list_run env now st
      (Ok (JArr (map render_message h)), st,
       [EvCacheGet chatID r; EvPickleLoads pickled (Ok h)]).

(** ** Order of the calls in a trace *)

Definition is_cache_write (ev : event) : bool :=
  match ev with EvCacheSetex _ _ _ _ => true | _ => false end.

Definition is_session_bind (ev : event) : bool :=
  match ev with EvSessionSet _ _ => true | _ => false end.

(** Index of the first event of [t] that satisfies [p]. *)
Fixpoint position (p : event → bool) (t : list event) : option nat :=
  match t with
  | [] => None
  | ev :: rest => if p ev then Some 0%nat else S <$> position p rest
  end.

(** Both kinds of call occur in [t], and the first [p] comes before the
    first [q]. *)
Definition happens_before (p q : event → bool) (t : list event) : bool :=
  match position p t, position q t with
  | Some i, Some j => (i <? j)%nat
  | _, _ => false
  end.

(** A send is successful when it runs to the [return] of line 159: the
    last call it makes is the cache write of line 158, and that write
    succeeds. *)
Definition successful_send (run : result json * State * list event) : Prop :=
  ∃ chatID ttl value,
    last (trace run) = Some (EvCacheSetex chatID ttl value (Ok ())).

(** ** Sequences of requests

    Requests of any number of visitors, one after the other.  Each comes
    with the world it meets, the instant at which it is served and the
    session its cookie carries; the cache is what they share. *)
Record visit : Type :=
  { visit_env : Env;
    visit_now : Z;
    visit_session : gmap string string;
    visit_endpoint : endpoint }.

Definition serve_visit (v : visit) (c : gmap string CacheEntry)
    : result json * State * list event :=
  serve (visit_env v) (visit_now v) (visit_endpoint v)
        {| session := visit_session v; cache := c |}.

(** The cache after the visits, and every call made, stamped with the
    instant of its request. *)
Fixpoint serve_all (vs : list visit) (c : gmap string CacheEntry)
    : gmap string CacheEntry * list (Z * event) :=
  match vs with
  | [] => (c, [])
  | v :: rest =>
    let run := serve_visit v c in
    let later := serve_all rest (cache (final_state run)) in
    (later.1, map (pair (visit_now v)) (trace run) ++ later.2)
  end.

(** The instant of a logged call when it is a successful write of [key]. *)
Definition write_of (key : string) (entry : Z * event) : option Z :=
  match entry with
  | (at_time, EvCacheSetex k _ _ (Ok _)) =>
    if decide (k = key) then Some at_time else None
  | _ => None
  end.

(** The instant of the last successful write of [key] in a log. *)
Fixpoint last_write (key : string) (log : list (Z * event)) : option Z :=
  match log with
  | [] => None
  | entry :: rest =>
    match last_write key rest with
    | Some at_time => Some at_time
    | None => write_of key entry
    end
  end.

(** ** Sample worlds *)

Definition sample_history : History :=
  [ {| role := "user"; parts := [ {| text := "hi" |} ] |};
    {| role := "model";
       parts := [ {| text := "hello" |}; {| text := "there" |} ] |} ].

Definition sample_pickle : bytes := [Byte.x80; Byte.x04; Byte.x5d; Byte.x2e].

(** A world in which everything works: the backend mints ["tok1"] and
    answers ["hello there"], the codec knows [sample_pickle], the cache
    client decodes responses. *)
Definition sample_env : Env :=
  {| decode_responses := true;
     redis_get_fault := None;
     redis_setex_fault := None;
     backend_create_chat := λ h, Ok ("tok1", default [] h);
     backend_send_message := λ h q, Ok ("hello there", sample_history);
     codec_loads := λ b,
       match b with
       | [Byte.x80; Byte.x04; Byte.x5d; Byte.x2e] => Ok sample_history
       | _ => Raise (OtherError "UnpicklingError")
       end;
     codec_dumps := λ h, Ok sample_pickle;
     py_str := λ j, match j with JStr s => s | _ => "" end |}.

(** The same world with a backend that answers every message with [r]. *)
Definition env_answering (r : result (string * History)) : Env :=
  {| decode_responses := decode_responses sample_env;
     redis_get_fault := None;
     redis_setex_fault := None;
     backend_create_chat := backend_create_chat sample_env;
     backend_send_message := λ h q, r;
     codec_loads := codec_loads sample_env;
     codec_dumps := codec_dumps sample_env;
     py_str := py_str sample_env |}.

Definition message_request (message : string) : request :=
  {| req_body := JsonBody (JObj [("message", JStr message)]) |}.

Definition fresh_state : State := {| session := ∅; cache := ∅ |}.

(** A visitor bound to ["tok1"], whose entry holds [value] and expires at
    3700. *)
Definition bound_state (value : bytes) : State :=
  {| session := {["chatID" := "tok1"]};
     cache := {["tok1" := {| payload := value; expires_at := 3700 |}]} |}.

(** The sample world with the cache connection down for writes. *)
Definition env_cache_down : Env :=
  {| decode_responses := decode_responses sample_env;
     redis_get_fault := None;
     redis_setex_fault := Some "ConnectionError";
     backend_create_chat := backend_create_chat sample_env;
     backend_send_message := backend_send_message sample_env;
     codec_loads := codec_loads sample_env;
     codec_dumps := codec_dumps sample_env;
     py_str := py_str sample_env |}.

(** ** Accepted request bodies *)

(** The value a view works with after its two checks: the body is a JSON
    object and [field] is bound in it to a truthy value. *)
Definition query_of (field : string) (req : request) : option json :=
  match req_body req with
  | JsonBody (JObj items) =>
    if truthy (items_get items field) then Some (items_get items field)
    else None
  | _ => None
  end.

(** ** Kinds of calls *)

Definition is_backend_call (ev : event) : bool :=
  match ev with
  | EvCreateChat _ _ | EvSendMessage _ _ _ => true
  | _ => false
  end.

Definition is_cache_call (ev : event) : bool :=
  match ev with
  | EvCacheGet _ _ | EvCacheSetex _ _ _ _ => true
  | _ => false
  end.

(** ** One visitor's requests in a row *)





(** ** The proxied endpoints *)

(** What the clients of [apis.spacedevs] and [apis.nasa] answer during one
    request; [nasa_fireball_map] is the outcome of
    [nasa_client.fireball_map().read()]. *)
Record Upstream : Type :=
  { spacedevs_events : result json;
    spacedevs_launches : result json;
    spacedevs_news : result json;
    nasa_potd : result json;
    nasa_fireball_map : result bytes }.







(** [bytes.decode("utf-8")]; the text keeps the bytes of its encoding. *)
Definition decode_utf8 (raw : bytes) : result string :=
  if utf8_valid raw then Ok (String.string_of_list_byte raw)
  else Raise (UnicodeDecodeError raw).

(** [GET /api/fireball_map], inside the rate limiter: no except clause. *)
Definition fireball_map (up : Upstream) : result json :=
  match nasa_fireball_map up with
  | Ok raw =>
    match decode_utf8 raw with
    | Ok html => Ok (JObj [("html", JStr html)])
    | Raise e => Raise e
    end
  | Raise e => Raise e
  end.




(** * Properties *)

(** ** The runs of the handlers *)

Lemma hour_window : whole_seconds HOUR_TIMEDELTA = 3600.
Proof. reflexivity. Qed.

Ltac unfold_monad :=
  unfold mbind, mret, M_bind, M_ret, raise, abort, call, emit, try_except.

Lemma fetch_pickled_run env now chatID st :
  fetch_pickled env now chatID st
  = (as_fetched (cache_lookup env now (cache st) chatID), st,
     [EvCacheGet chatID (cache_lookup env now (cache st) chatID)]).
Proof.
  unfold fetch_pickled, redis_get, unicode_fallback. unfold_monad.
  destruct (cache_lookup env now (cache st) chatID) as [v|[]]; reflexivity.
Qed.

Lemma send_and_persist_runs env now chatID chat query st :
  persist_run env now chatID chat query st
    (send_and_persist env now chatID chat query st).
Proof.
  unfold send_and_persist, send_message, session_setitem, pickle_dumps,
    redis_setex.
  unfold_monad. rewrite hour_window.
  destruct (backend_send_message env chat query) as [[resp chat']|e] eqn:Hsend;
    [|by constructor].
  simpl.
  destruct (codec_dumps env chat') as [value|e] eqn:Hdumps;
    [|by econstructor].
  simpl.
  destruct (redis_setex_fault env) as [name|] eqn:Hfault; simpl;
    by econstructor.
Qed.

Lemma chat_gemini_try_runs env now req st :
  try_run env now st (chat_gemini_try env now req st).
Proof.
  unfold chat_gemini_try, get_json, dict_get.
  destruct (req_body req) as [| |rjson]; unfold_monad; simpl;
    [constructor; tauto..|].
  destruct (truthy rjson) eqn:Hrjson; simpl; [|constructor; tauto].
  destruct rjson as [| | | | | |items]; simpl; try (constructor; tauto).
  destruct (truthy (items_get items "message")) eqn:Hquery; simpl;
    [|constructor; tauto].
  set (query := items_get items "message") in *.
  unfold resume_or_start, session_contains, session_getitem, create_chat,
    pickle_loads.
  unfold_monad.
  destruct (session st !! "chatID") as [chatID|] eqn:Hsession; simpl.
  - rewrite Hsession; simpl. rewrite fetch_pickled_run.
    destruct (as_fetched _) as [pickled|e] eqn:Hfetch.
    2:{ destruct (cache_lookup env now (cache st) chatID) as [|e'] eqn:Hget;
          [done|].
        assert (e' = e) as -> by (destruct e'; simpl in Hfetch; congruence).
        by apply try_fetch_fails. }
    destruct (py_truthy pickled) eqn:Htruthy; simpl;
      [|by eapply try_expired].
    destruct (loads_outcome env pickled) as [h|e] eqn:Hloads; simpl;
      [|by eapply try_loads_fails].
    destruct (backend_create_chat env (Some h)) as [[fresh chat]|e] eqn:Hchat;
      simpl; [|by eapply try_resume_fails].
    pose proof (send_and_persist_runs env now chatID chat query st) as Hrun.
    destruct (send_and_persist _ _ _ _ _ _) as [[res st'] t].
    by eapply try_resume.
  -
    destruct (backend_create_chat env None) as [[chatID chat]|e] eqn:Hchat;
      simpl; [|by apply try_start_fails].
    pose proof (send_and_persist_runs env now chatID chat query st) as Hrun.
    destruct (send_and_persist _ _ _ _ _ _) as [[res st'] t].
    by eapply try_start.
Qed.

Lemma chat_gemini_caught env now req st :
  chat_gemini env now req st = caught (chat_gemini_try env now req st).
Proof.
  unfold chat_gemini, chat_gemini_except, logging_exception, caught.
  unfold_monad.
  destruct (chat_gemini_try env now req st) as [[[j|e] st'] t];
    [done|destruct e; simpl; by rewrite ?app_nil_r].
Qed.

Lemma chat_gemini_runs env now req st :
  ∃ run, try_run env now st run ∧ chat_gemini env now req st = caught run.
Proof.
  exists (chat_gemini_try env now req st).
  split; [apply chat_gemini_try_runs|apply chat_gemini_caught].
Qed.

Lemma chat_history_list_runs env now st :
  list_run env now st (chat_history_list env now st).
Proof.
  unfold chat_history_list, session_contains, session_getitem, pickle_loads.
  unfold_monad.
  destruct (session st !! "chatID") as [chatID|] eqn:Hsession; simpl;
    [|by constructor].
  rewrite Hsession; simpl. rewrite fetch_pickled_run.
  destruct (as_fetched _) as [pickled|e] eqn:Hfetch.
  2:{ destruct (cache_lookup env now (cache st) chatID) as [|e'] eqn:Hget;
        [done|].
      assert (e' = e) as -> by (destruct e'; simpl in Hfetch; congruence).
      by apply list_fetch_fails. }
  destruct (py_truthy pickled) eqn:Htruthy; simpl; [|by eapply list_absent].
  destruct (loads_outcome env pickled) as [h|e] eqn:Hloads; simpl;
    [by eapply list_rendered|by eapply list_loads_fails].
Qed.

(** Case analysis on the runs of a handler. *)
Ltac invert_runs :=
  repeat match goal with
         | H : try_run _ _ _ _ |- _ => inversion H; subst; clear H
         | H : list_run _ _ _ _ |- _ => inversion H; subst; clear H
         | H : persist_run _ _ _ _ _ _ _ |- _ => inversion H; subst; clear H
         end.

(** Case analysis on what the except clauses of [chat_gemini] catch. *)
Ltac caught_cases :=
  unfold caught in *;
  repeat match goal with
         | |- context [match ?e with HTTPException _ => _ | _ => _ end] =>
           is_var e; destruct e
         | H : context [match ?e with HTTPException _ => _ | _ => _ end]
           |- _ => is_var e; destruct e
         end;
  cbn [outcome final_state trace fst snd app] in *.

(** Which event of an explicit trace a membership hypothesis speaks of. *)
Ltac split_trace :=
  repeat match goal with
         | H : In _ (_ ++ _) |- _ => apply in_app_or in H; destruct H as [H|H]
         | H : In _ (_ :: _) |- _ => destruct H as [H|H]
         | H : In _ [] |- _ => destruct H
         | H : _ ∨ _ |- _ => destruct H as [H|H]
         | H : False |- _ => destruct H
         | H : @eq event _ _ |- _ =>
           first [discriminate H | injection H as ?; subst]
         | H : @eq (result _) (Ok _) (Ok _) |- _ => injection H as ?; subst
         | H : @eq (result _) (Raise _) (Raise _) |- _ =>
           injection H as ?; subst
         | H : @eq (result _) (Ok _) (Raise _) |- _ => discriminate H
         | H : @eq (result _) (Raise _) (Ok _) |- _ => discriminate H
         | H : cache_lookup _ _ _ _ = _ |- _ => rewrite H in *; clear H
         end.

Ltac send_cases env now req st :=
  let run := fresh "run" in
  let Hrun := fresh "Hrun" in
  let Hcaught := fresh "Hcaught" in
  destruct (chat_gemini_runs env now req st) as (run & Hrun & Hcaught);
  rewrite Hcaught in *; clear Hcaught;
  invert_runs; caught_cases.

(** ** The handlers on the sample world *)

(** A first message: the backend mints the token, the session is bound to
    it and the cache holds the encoded history for an hour. *)
Example first_send :
  chat_gemini sample_env 100 (message_request "hi") fresh_state
  = (Ok (JObj [("message", JStr "hello there")]),
     bound_state sample_pickle,
     [EvCreateChat None (Ok ("tok1", []));
      EvSendMessage [] (JStr "hi") (Ok ("hello there", sample_history));
      EvSessionSet "chatID" "tok1";
      EvPickleDumps sample_history (Ok sample_pickle);
      EvCacheSetex "tok1" 3600 sample_pickle (Ok ())]).
Proof. reflexivity. Qed.

(** The listing that follows: the pickled bytes do not decode as text, the
    client raises, and the handler unpickles the bytes of the error. *)
Example listing_after_send :
  chat_history_list sample_env 200 (bound_state sample_pickle)
  = (Ok (JArr [JObj [("role", JStr "user"); ("content", JStr "hi")];
               JObj [("role", JStr "model");
                     ("content", JStr "hello there")]]),
     bound_state sample_pickle,
     [EvCacheGet "tok1" (Raise (UnicodeDecodeError sample_pickle));
      EvPickleLoads (PBytes sample_pickle) (Ok sample_history)]).
Proof. reflexivity. Qed.

(** A successful send returns the reply of the chat backend. *)
Lemma successful_send_returns_reply env now req st :
  successful_send (chat_gemini env now req st) →
  ∃ chat query resp chat',
    In (EvSendMessage chat query (Ok (resp, chat')))
       (trace (chat_gemini env now req st))
    ∧ outcome (chat_gemini env now req st)
      = Ok (JObj [("message", JStr resp)]).
Proof.
  intros (k & ttl & v & Hlast).
  send_cases env now req st; cbn [last] in Hlast; try discriminate Hlast.
  all: do 4 eexists; split; [|reflexivity]; simpl; eauto 10.
Qed.

(** ** The cache client *)

Lemma utf8_valid_nil : utf8_valid [] = true.
Proof. reflexivity. Qed.

(** A decoding error of the client carries the stored, non-empty payload of
    a live entry. *)
Lemma cache_lookup_decode_error env now c key raw :
  cache_lookup env now c key = Raise (UnicodeDecodeError raw) →
  (∃ e, c !! key = Some e ∧ payload e = raw ∧ now < expires_at e)
  ∧ py_truthy (PBytes raw) = true.
Proof.
  unfold cache_lookup, client_decode.
  destruct (redis_get_fault env); [done|].
  destruct (c !! key) as [e|]; [|done].
  destruct (now <? expires_at e) eqn:Hlive; [|done].
  destruct (decode_responses env); [|done].
  destruct (utf8_valid (payload e)) eqn:Hvalid; [done|].
  intros [= <-]. split.
  - exists e. repeat split. by apply Z.ltb_lt.
  - destruct (payload e); [by rewrite utf8_valid_nil in Hvalid|done].
Qed.

(** The handlers never write to the session or the cache outside lines
    157 and 158. *)
Lemma chat_history_list_state env now st :
  final_state (chat_history_list env now st) = st.
Proof.
  pose proof (chat_history_list_runs env now st) as Hrun.
  destruct (chat_history_list env now st) as [[r st'] t].
  by invert_runs.
Qed.

(** ** Rejected request bodies *)

(** C1: a request without a body, with an empty object, or with a missing
    or empty ["message"] (["url"] for [/api/summarize]) makes the view call
    [abort(415)] or [abort(400)] and reach nothing outside: no cache call,
    no chat backend call, no change of state.  But the [HTTPException] that
    [abort] raises is caught by the view's own [except Exception], so the
    response is a 200 with the generic failure message and not the 4xx. *)
Theorem abort_is_caught_by_the_view env now st :
  chat_gemini env now (message_request "") st
  = (Ok OUT_OF_SERVICE, st, [EvLogException (HTTPException 400)])
  ∧ chat_gemini env now {| req_body := JsonBody (JObj []) |} st
    = (Ok OUT_OF_SERVICE, st, [EvLogException (HTTPException 415)])
  ∧ chat_gemini env now {| req_body := NoJsonBody |} st
    = (Ok OUT_OF_SERVICE, st, [EvLogException (HTTPException 415)])
  ∧ summarize env {| req_body := JsonBody (JObj [("url", JStr "")]) |} st
    = (Ok SUMMARIZE_ERROR, st, [EvLogException (HTTPException 400)])
  ∧ summarize env {| req_body := NoJsonBody |} st
    = (Ok SUMMARIZE_ERROR, st, [EvLogException (HTTPException 415)])
  ∧ make_response (Ok OUT_OF_SERVICE) = JsonResponse 200 OUT_OF_SERVICE
  ∧ make_response (Ok SUMMARIZE_ERROR) = JsonResponse 200 SUMMARIZE_ERROR.
Proof. repeat split. Qed.

(** ** Exceptions at the request boundary *)

(** [POST /api/chat/send] never lets an exception out, whatever the world
    does. *)
Lemma chat_gemini_never_raises env now req st :
  ∃ j, outcome (chat_gemini env now req st) = Ok j.
Proof.
  rewrite chat_gemini_caught.
  destruct (chat_gemini_try env now req st) as [[[j|e] st'] t];
    [|destruct e]; simpl; eauto.
Qed.

(** C2: [GET /api/chat/list] has no except clause of its own.  With a
    session bound to ["tok1"] and a live entry whose bytes the codec does
    not accept, [pickle.loads] raises, the exception leaves the view and
    the visitor gets the framework's 500 page. *)
Theorem list_lets_decode_failure_escape :
  chat_history_list sample_env 100 (bound_state [Byte.xff])
  = (Raise (OtherError "UnpicklingError"), bound_state [Byte.xff],
     [EvCacheGet "tok1" (Raise (UnicodeDecodeError [Byte.xff]));
      EvPickleLoads (PBytes [Byte.xff])
        (Raise (OtherError "UnpicklingError"))])
  ∧ make_response
      (outcome (chat_history_list sample_env 100 (bound_state [Byte.xff])))
    = ErrorPage 500.
Proof. split; reflexivity. Qed.

(** ** The expired session *)

(** C4: when the session holds a token and the fetch of that token comes
    back absent or empty, the response is the 200 "session expired"
    message, session and cache are as they were, and the fetch is the only
    call made: no chat is created, no message sent, nothing written. *)
Theorem expired_session_short_circuits env now req st chatID v :
  session st !! "chatID" = Some chatID →
  In (EvCacheGet chatID (Ok v)) (trace (chat_gemini env now req st)) →
  py_truthy v = false →
  make_response (outcome (chat_gemini env now req st))
  = JsonResponse 200 SESSION_EXPIRED
  ∧ final_state (chat_gemini env now req st) = st
  ∧ trace (chat_gemini env now req st) = [EvCacheGet chatID (Ok v)].
Proof.
  intros Hsession Hget Hfalsy.
  send_cases env now req st; split_trace; cbn [as_fetched] in *; split_trace.
  all: try congruence.
  done.
Qed.

Lemma expired_session_short_circuits_witness :
  make_response
    (outcome (chat_gemini sample_env 3700 (message_request "and then?")
                (bound_state sample_pickle)))
  = JsonResponse 200 SESSION_EXPIRED
  ∧ final_state (chat_gemini sample_env 3700 (message_request "and then?")
                   (bound_state sample_pickle))
    = bound_state sample_pickle
  ∧ trace (chat_gemini sample_env 3700 (message_request "and then?")
             (bound_state sample_pickle))
    = [EvCacheGet "tok1" (Ok PNone)].
Proof.
  apply (expired_session_short_circuits sample_env 3700
           (message_request "and then?") (bound_state sample_pickle)
           "tok1" PNone).
  - reflexivity.
  - left. reflexivity.
  - reflexivity.
Defined.

(** ** Failures of the chat backend *)

(** C10: when the call that produces the reply raises, whatever it raises,
    the session and the cache are left as they were: the bind of line 157
    and the write of line 158 come after the call. *)
Theorem failed_reply_changes_nothing env now req st chat query e :
  In (EvSendMessage chat query (Raise e))
     (trace (chat_gemini env now req st)) →
  final_state (chat_gemini env now req st) = st.
Proof.
  intros Hsend. send_cases env now req st; split_trace; done.
Qed.

Lemma failed_reply_changes_nothing_witness :
  final_state
    (chat_gemini (env_answering (Raise (OtherError "ResourceExhausted")))
       200 (message_request "and then?") (bound_state sample_pickle))
  = bound_state sample_pickle.
Proof.
  apply (failed_reply_changes_nothing
           (env_answering (Raise (OtherError "ResourceExhausted")))
           200 (message_request "and then?") (bound_state sample_pickle)
           sample_history (JStr "and then?") (OtherError "ResourceExhausted")).
  do 3 right. left. reflexivity.
Defined.

(** C6: when the chat backend declines the message
    ([StopCandidateException]), the response is the 200
    "I cannot answer that." message, and the session, its ["chatID"]
    binding included, and the cache are exactly as before the request. *)
Theorem content_decline_is_isolated env now req st chat query :
  In (EvSendMessage chat query (Raise StopCandidateException))
     (trace (chat_gemini env now req st)) →
  make_response (outcome (chat_gemini env now req st))
  = JsonResponse 200 CANNOT_ANSWER
  ∧ session (final_state (chat_gemini env now req st)) = session st
  ∧ cache (final_state (chat_gemini env now req st)) = cache st.
Proof.
  intros Hsend. send_cases env now req st; split_trace; done.
Qed.

Lemma content_decline_is_isolated_witness :
  make_response
    (outcome (chat_gemini (env_answering (Raise StopCandidateException))
                200 (message_request "and then?")
                (bound_state sample_pickle)))
  = JsonResponse 200 CANNOT_ANSWER
  ∧ session (final_state
               (chat_gemini (env_answering (Raise StopCandidateException))
                  200 (message_request "and then?")
                  (bound_state sample_pickle)))
    = session (bound_state sample_pickle)
  ∧ cache (final_state
             (chat_gemini (env_answering (Raise StopCandidateException))
                200 (message_request "and then?")
                (bound_state sample_pickle)))
    = cache (bound_state sample_pickle).
Proof.
  apply (content_decline_is_isolated
           (env_answering (Raise StopCandidateException))
           200 (message_request "and then?") (bound_state sample_pickle)
           sample_history (JStr "and then?")).
  do 3 right. left. reflexivity.
Defined.

(** ** Decoding errors of the cache client *)

Lemma serve_runs env now ep st :
  (∃ run, try_run env now st run ∧ serve env now ep st = caught run)
  ∨ list_run env now st (serve env now ep st).
Proof.
  destruct ep as [req|]; simpl.
  - left. apply chat_gemini_runs.
  - right. apply chat_history_list_runs.
Qed.

Ltac serve_cases env now ep st :=
  let run := fresh "run" in
  let Hrun := fresh "Hrun" in
  let Hcaught := fresh "Hcaught" in
  destruct (serve_runs env now ep st) as [(run & Hrun & Hcaught)|Hrun];
  [ rewrite Hcaught in *; clear Hcaught
  | destruct (serve env now ep st) as [[? ?] ?] ];
  invert_runs; caught_cases.

(** The fetch a handler records is the lookup of that key in the cache the
    request started from. *)
Lemma fetch_event_is_lookup env now ep st key r :
  In (EvCacheGet key r) (trace (serve env now ep st)) →
  r = cache_lookup env now (cache st) key.
Proof.
  intros Hget.
  serve_cases env now ep st;
    repeat match goal with
           | H : In _ (_ :: _) |- _ => destruct H as [H|H]
           | H : In _ [] |- _ => destruct H
           | H : @eq event _ _ |- _ =>
             first [discriminate H | injection H as ?; subst]
           end;
    congruence.
Qed.

(** C7: when the client's decoding step raises [UnicodeDecodeError] on a
    fetch, in [POST /api/chat/send] as in [GET /api/chat/list], the bytes
    attached to the error are the stored payload of the key, the fetch
    hands them to the caller, they are not taken for a missing key (they
    are truthy, so the "absent" branch is not the one taken) and the
    handler goes on to [pickle.loads] them. *)
Theorem decode_error_is_not_a_miss env now ep st chatID raw :
  In (EvCacheGet chatID (Raise (UnicodeDecodeError raw)))
     (trace (serve env now ep st)) →
  (∃ e, cache st !! chatID = Some e ∧ payload e = raw)
  ∧ fetch_pickled env now chatID st
    = (Ok (PBytes raw), st,
       [EvCacheGet chatID (Raise (UnicodeDecodeError raw))])
  ∧ py_truthy (PBytes raw) = true
  ∧ ∃ r, In (EvPickleLoads (PBytes raw) r) (trace (serve env now ep st)).
Proof.
  intros Hget.
  pose proof (fetch_event_is_lookup _ _ _ _ _ _ Hget) as Hlookup.
  symmetry in Hlookup.
  destruct (cache_lookup_decode_error _ _ _ _ _ Hlookup)
    as [(e & Hentry & Hraw & _) Htruthy].
  split; [by exists e|].
  split; [by rewrite fetch_pickled_run, Hlookup|].
  split; [done|].
  clear Hlookup.
  serve_cases env now ep st; split_trace; cbn [as_fetched] in *; split_trace;
    try congruence.
  all: eexists; simpl; eauto.
Qed.

Lemma decode_error_is_not_a_miss_witness :
  (∃ e, cache (bound_state sample_pickle) !! "tok1" = Some e
        ∧ payload e = sample_pickle)
  ∧ fetch_pickled sample_env 200 "tok1" (bound_state sample_pickle)
    = (Ok (PBytes sample_pickle), bound_state sample_pickle,
       [EvCacheGet "tok1" (Raise (UnicodeDecodeError sample_pickle))])
  ∧ py_truthy (PBytes sample_pickle) = true
  ∧ ∃ r, In (EvPickleLoads (PBytes sample_pickle) r)
            (trace (serve sample_env 200 ChatList
                      (bound_state sample_pickle))).
Proof.
  apply (decode_error_is_not_a_miss sample_env 200 ChatList
           (bound_state sample_pickle) "tok1" sample_pickle).
  left. reflexivity.
Defined.

(** ** Order of the bind and the write *)

(** C3, as the code has it: a successful send first binds the token into
    the session (line 157), then encodes the history and writes it to the
    cache under that token with the one-hour window (line 158); nothing
    before the bind touches the session or writes to the cache. *)
Theorem session_bind_precedes_cache_write env now req st :
  successful_send (chat_gemini env now req st) →
  ∃ before chatID chat' value,
    trace (chat_gemini env now req st)
    = before ++ [EvSessionSet "chatID" chatID;
                 EvPickleDumps chat' (Ok value);
                 EvCacheSetex chatID (whole_seconds HOUR_TIMEDELTA) value
                   (Ok ())]
    ∧ Forall (λ ev, is_session_bind ev = false ∧ is_cache_write ev = false)
             before
    ∧ happens_before is_session_bind is_cache_write
        (trace (chat_gemini env now req st)) = true
    ∧ happens_before is_cache_write is_session_bind
        (trace (chat_gemini env now req st)) = false.
Proof.
  intros (k & ttl & v & Hlast).
  send_cases env now req st; cbn [last] in Hlast; try discriminate Hlast.
  all: match goal with
       | |- context [?a :: ?b :: ?c :: ?d :: _ :: _ :: _ :: [] = _ ++ _] =>
         exists [a; b; c; d]
       | |- context [?a :: ?b :: _ :: _ :: _ :: [] = _ ++ _] =>
         exists [a; b]
       end.
  all: do 3 eexists; repeat split; repeat constructor.
Qed.

Lemma session_bind_precedes_cache_write_witness :
  ∃ before chatID chat' value,
    trace (chat_gemini sample_env 100 (message_request "hi") fresh_state)
    = before ++ [EvSessionSet "chatID" chatID;
                 EvPickleDumps chat' (Ok value);
                 EvCacheSetex chatID (whole_seconds HOUR_TIMEDELTA) value
                   (Ok ())]
    ∧ Forall (λ ev, is_session_bind ev = false ∧ is_cache_write ev = false)
             before
    ∧ happens_before is_session_bind is_cache_write
        (trace (chat_gemini sample_env 100 (message_request "hi")
                  fresh_state)) = true
    ∧ happens_before is_cache_write is_session_bind
        (trace (chat_gemini sample_env 100 (message_request "hi")
                  fresh_state)) = false.
Proof.
  apply (session_bind_precedes_cache_write sample_env 100
           (message_request "hi") fresh_state).
  exists "tok1", 3600, sample_pickle. reflexivity.
Defined.

(** C3, as the claim has it (the write first, then the bind), fails: in a
    successful first send the write does not come before the bind, and the
    order shows when the write fails, which leaves the session bound to a
    token that has no cache entry. *)
Lemma cache_write_does_not_precede_bind :
  successful_send
    (chat_gemini sample_env 100 (message_request "hi") fresh_state)
  ∧ trace (chat_gemini sample_env 100 (message_request "hi") fresh_state)
    = [EvCreateChat None (Ok ("tok1", []));
       EvSendMessage [] (JStr "hi") (Ok ("hello there", sample_history));
       EvSessionSet "chatID" "tok1";
       EvPickleDumps sample_history (Ok sample_pickle);
       EvCacheSetex "tok1" 3600 sample_pickle (Ok ())]
  ∧ happens_before is_cache_write is_session_bind
      (trace (chat_gemini sample_env 100 (message_request "hi") fresh_state))
    = false
  ∧ final_state
      (chat_gemini env_cache_down 100 (message_request "hi") fresh_state)
    = {| session := {["chatID" := "tok1"]}; cache := ∅ |}.
Proof.
  split; [|repeat split].
  exists "tok1", 3600, sample_pickle. reflexivity.
Qed.

(** ** The retry delay of the 429 handler *)

Lemma retry_delta_eq now reset :
  retry_delta now reset = ((reset - now) mod 86400000000) / 1000000.
Proof. reflexivity. Qed.

(** C9, as the code has it: a rejected request gets status 429 and a delay
    that is the whole seconds left until the reset (less any whole days):
    an integer from 0 to 86399, which is 0 when less than a second is left
    and positive when at least a second and less than a day is left. *)
Theorem retry_delay_is_whole_seconds_left now reset :
  now ≤ reset →
  ratelimit_handler now reset
  = JsonResponse 429
      (JObj [("error",
              JStr ("rate limit exceeded, please try again after "
                    +:+ pretty (retry_delta now reset) +:+ " seconds"))])
  ∧ 0 ≤ retry_delta now reset < 86400
  ∧ (reset - now < 86400 * US_PER_SECOND →
     retry_delta now reset = (reset - now) / US_PER_SECOND)
  ∧ (reset - now < US_PER_SECOND → retry_delta now reset = 0)
  ∧ (US_PER_SECOND ≤ reset - now < 86400 * US_PER_SECOND →
     0 < retry_delta now reset).
Proof.
  intros Hle. rewrite retry_delta_eq. unfold US_PER_SECOND.
  split; [reflexivity|].
  pose proof (Z.mod_pos_bound (reset - now) 86400000000 eq_refl) as Hmod.
  split.
  { split.
    - apply Z.div_pos; lia.
    - apply Z.div_lt_upper_bound; lia. }
  split.
  { intros Hday. rewrite Z.mod_small by lia. reflexivity. }
  split.
  { intros Hsecond. rewrite Z.mod_small by lia. apply Z.div_small. lia. }
  intros [Hsecond Hday]. rewrite Z.mod_small by lia.
  apply Z.div_str_pos. lia.
Qed.

Lemma retry_delay_is_whole_seconds_left_witness :
  ratelimit_handler 10500000 14000000
  = JsonResponse 429
      (JObj [("error",
              JStr ("rate limit exceeded, please try again after "
                    +:+ pretty (retry_delta 10500000 14000000)
                    +:+ " seconds"))])
  ∧ 0 ≤ retry_delta 10500000 14000000 < 86400
  ∧ (14000000 - 10500000 < 86400 * US_PER_SECOND →
     retry_delta 10500000 14000000
     = (14000000 - 10500000) / US_PER_SECOND)
  ∧ (14000000 - 10500000 < US_PER_SECOND →
     retry_delta 10500000 14000000 = 0)
  ∧ (US_PER_SECOND ≤ 14000000 - 10500000 < 86400 * US_PER_SECOND →
     0 < retry_delta 10500000 14000000).
Proof.
  apply (retry_delay_is_whole_seconds_left 10500000 14000000). lia.
Defined.

(** C9, as the claim has it (a positive number of seconds for every reset
    at or after the rejection), fails: half a second before the reset the
    handler answers "try again after 0 seconds". *)
Lemma retry_delay_can_be_zero :
  10500000 ≤ 11000000
  ∧ retry_delta 10500000 11000000 = 0
  ∧ ratelimit_handler 10500000 11000000
    = JsonResponse 429
        (JObj [("error",
                JStr "rate limit exceeded, please try again after 0 seconds")]).
Proof. split; [lia|split; reflexivity]. Qed.

(** ** Time to live of the cache entries *)

Lemma last_write_app key log1 log2 :
  last_write key (log1 ++ log2)
  = match last_write key log2 with
    | Some at_time => Some at_time
    | None => last_write key log1
    end.
Proof.
  induction log1 as [|entry log1 IH]; simpl.
  - by destruct (last_write key log2).
  - rewrite IH. by destruct (last_write key log2).
Qed.

(** What one request does to the entry of [key]: a successful write makes
    it expire an hour after the request, anything else leaves it alone. *)
Lemma serve_cache_effect env now ep st key :
  (∀ k ttl v r,
     In (EvCacheSetex k ttl v r) (trace (serve env now ep st)) → ttl = 3600)
  ∧ match last_write key (map (pair now) (trace (serve env now ep st))) with
    | Some at_time =>
      at_time = now
      ∧ ∃ value,
          cache (final_state (serve env now ep st)) !! key
          = Some {| payload := value; expires_at := now + 3600 |}
    | None =>
      cache (final_state (serve env now ep st)) !! key = cache st !! key
    end.
Proof.
  serve_cases env now ep st.
  all: split; [intros k ttl v r Hin; split_trace; done|].
  all: cbn [map last_write write_of]; try done.
  all: case_decide; subst; cbn [store_history bind_token cache].
  all: first [ split; [done|]; eexists; apply lookup_insert_eq
             | by rewrite lookup_insert_ne ].
Qed.

(** C5: over any sequence of sends and listings by any visitors, every
    cache write carries the one-hour window, and the entry of a key expires
    exactly one hour after the last successful write of that key; a key
    never written keeps the entry it had.  Reads are among the logged
    calls and have no part in it. *)
Theorem ttl_is_set_by_writes_only vs c key :
  (∀ at_time k ttl v r,
     In (at_time, EvCacheSetex k ttl v r) (serve_all vs c).2 →
     ttl = whole_seconds HOUR_TIMEDELTA)
  ∧ match last_write key (serve_all vs c).2 with
    | Some at_time =>
      ∃ value,
        (serve_all vs c).1 !! key
        = Some {| payload := value;
                  expires_at := at_time + whole_seconds HOUR_TIMEDELTA |}
    | None => (serve_all vs c).1 !! key = c !! key
    end.
Proof.
  rewrite hour_window.
  revert c. induction vs as [|v vs IH]; intros c; [by split|].
  cbn [serve_all fst snd].
  set (run := serve_visit v c).
  destruct (IH (cache (final_state run))) as [IHttl IHkey].
  destruct (serve_cache_effect (visit_env v) (visit_now v) (visit_endpoint v)
              {| session := visit_session v; cache := c |} key)
    as [Httl Hkey].
  fold (serve_visit v c) in Httl, Hkey. fold run in Httl, Hkey.
  split.
  - intros at_time k ttl value r [Hin|Hin]%in_app_or; [|by eapply IHttl].
    apply in_map_iff in Hin as (ev & [= <- ->] & Hin). by eapply Httl.
  - rewrite last_write_app.
    destruct (last_write key (serve_all vs (cache (final_state run))).2)
      as [at_time|]; [done|].
    rewrite IHkey.
    destruct (last_write key (map (pair (visit_now v)) (trace run)))
      as [at_time|]; [|done].
    by destruct Hkey as [-> ?].
Qed.

(** * Further properties of the handlers *)

(** ** What [POST /api/chat/send] answers and what it leaves alone *)

(** The [try] block after its two checks. *)
Lemma chat_gemini_try_checked env now req st :
  match query_of "message" req with
  | Some query =>
    chat_gemini_try env now req st = resume_or_start env now query st
  | None =>
    ∃ e, e ≠ StopCandidateException
         ∧ chat_gemini_try env now req st = (Raise e, st, [])
  end.
Proof.
  assert (∀ e0 : exn, e0 ≠ StopCandidateException →
          ∃ e, e ≠ StopCandidateException
               ∧ (@Raise json e0, st, @nil event) = (Raise e, st, []))
    as Hrejected by (intros e0 He0; by exists e0).
  unfold query_of, chat_gemini_try, get_json, dict_get.
  destruct (req_body req) as [| |rjson]; unfold_monad; simpl;
    [by apply Hrejected..|].
  destruct rjson as [|b|n|f|s|xs|items]; simpl; [by apply Hrejected|..].
  1-5: match goal with
       | |- context [negb ?b] => destruct b; simpl; by apply Hrejected
       | |- context [match ?l with [] => _ | _ => _ end] =>
         destruct l; simpl; by apply Hrejected
       end.
  destruct items as [|item items]; [simpl; by apply Hrejected|].
  generalize (items_get (item :: items) "message"); intros query.
  cbn [truthy negb].
  destruct (truthy query); simpl; [|by apply Hrejected].
  by destruct (resume_or_start _ _ _ _) as [[r st'] t].
Qed.


(** X2: the two checks of the body accept exactly the JSON objects whose
    ["message"] is truthy, of whatever JSON type, and hand that value on
    as the query; every other body ends in the out-of-service message with
    one logged exception, no call to the cache or the chat backend and no
    change of session or cache. *)
Theorem body_check_decides env now req st :
  match query_of "message" req with
  | Some query =>
    chat_gemini_try env now req st = resume_or_start env now query st
  | None =>
    ∃ e, chat_gemini env now req st
         = (Ok OUT_OF_SERVICE, st, [EvLogException e])
  end.
Proof.
  pose proof (chat_gemini_try_checked env now req st) as Htry.
  destruct (query_of "message" req) as [query|]; [done|].
  destruct Htry as (e & He & Hrun).
  exists e. rewrite chat_gemini_caught, Hrun. by destruct e.
Qed.

(** X3: a send never rebinds a session that is bound: when the session
    holds a ["chatID"], the whole session is the same after the request,
    also when the chat backend hands back another token on resuming. *)
Theorem send_keeps_a_bound_session env now req st chatID :
  session st !! "chatID" = Some chatID →
  session (final_state (chat_gemini env now req st)) = session st.
Proof.
  intros Hbound. send_cases env now req st; try done; try congruence.
  all: cbn [store_history bind_token session].
  all: apply insert_id; congruence.
Qed.

Lemma send_keeps_a_bound_session_witness :
  session (final_state (chat_gemini sample_env 200
                          (message_request "and then?")
                          (bound_state sample_pickle)))
  = session (bound_state sample_pickle).
Proof.
  apply (send_keeps_a_bound_session sample_env 200
           (message_request "and then?") (bound_state sample_pickle) "tok1").
  reflexivity.
Defined.

(** X4: a send touches one field of the session and one key of the cache:
    the session without ["chatID"] is as before, and a cache key whose
    entry differs from before is the token the session is bound to
    afterwards. *)
Theorem send_frame env now req st key :
  delete "chatID" (session (final_state (chat_gemini env now req st)))
  = delete "chatID" (session st)
  ∧ (cache (final_state (chat_gemini env now req st)) !! key
     = cache st !! key
     ∨ session (final_state (chat_gemini env now req st)) !! "chatID"
       = Some key).
Proof.
  send_cases env now req st;
    cbn [store_history bind_token session cache];
    rewrite ?delete_insert_eq; (split; [done|]); auto.
  all: destruct (decide (chatID = key)) as [->|Hne];
    [right; apply lookup_insert_eq|left; by rewrite lookup_insert_ne].
Qed.

(** ** What a successful send leaves behind *)

(** The run of a successful send, in full. *)
Lemma successful_send_inv env now req st :
  successful_send (chat_gemini env now req st) →
  ∃ before chatID chat query resp chat' value,
    (session st !! "chatID" = Some chatID
     ∨ session st !! "chatID" = None
       ∧ backend_create_chat env None = Ok (chatID, chat))
    ∧ backend_send_message env chat query = Ok (resp, chat')
    ∧ codec_dumps env chat' = Ok value
    ∧ (∀ h r, ¬ In (EvPickleDumps h r) before)
    ∧ chat_gemini env now req st
      = (Ok (JObj [("message", JStr resp)]),
         store_history now chatID value (bind_token chatID st),
         before ++ [EvSendMessage chat query (Ok (resp, chat'));
                    EvSessionSet "chatID" chatID;
                    EvPickleDumps chat' (Ok value);
                    EvCacheSetex chatID 3600 value (Ok ())]).
Proof.
  intros (k & ttl & v & Hlast).
  send_cases env now req st; cbn [last] in Hlast; try discriminate Hlast.
  - eexists [_]. do 6 eexists. repeat split; eauto.
    intros h r Hin. split_trace.
  - eexists [_; _; _]. do 6 eexists. repeat split; eauto.
    intros h' r' Hin. split_trace.
Qed.

(** X5: a successful send answers with the reply of the chat backend,
    binds the session to the token (the one it held, or else the one the
    backend minted for the new chat) and leaves under that token the
    encoding of the history the backend holds after the reply, expiring
    one hour after the request; nothing else in the session or the cache
    changes. *)
Theorem successful_send_persists env now req st :
  successful_send (chat_gemini env now req st) →
  ∃ chatID chat query resp chat' value,
    match session st !! "chatID" with
    | Some bound => chatID = bound
    | None => backend_create_chat env None = Ok (chatID, chat)
    end
    ∧ backend_send_message env chat query = Ok (resp, chat')
    ∧ codec_dumps env chat' = Ok value
    ∧ outcome (chat_gemini env now req st)
      = Ok (JObj [("message", JStr resp)])
    ∧ final_state (chat_gemini env now req st)
      = {| session := <["chatID" := chatID]> (session st);
           cache := <[chatID := {| payload := value;
                                   expires_at := now + 3600 |}]>
                      (cache st) |}.
Proof.
  intros Hdone.
  destruct (successful_send_inv _ _ _ _ Hdone)
    as (before & chatID & chat & query & resp & chat' & value
        & Htoken & Hsend & Hdumps & _ & ->).
  exists chatID, chat, query, resp, chat', value.
  repeat split; try done.
  by destruct Htoken as [->|[-> ?]].
Qed.

Lemma successful_send_persists_witness :
  ∃ chatID chat query resp chat' value,
    match session fresh_state !! "chatID" with
    | Some bound => chatID = bound
    | None => backend_create_chat sample_env None = Ok (chatID, chat)
    end
    ∧ backend_send_message sample_env chat query = Ok (resp, chat')
    ∧ codec_dumps sample_env chat' = Ok value
    ∧ outcome (chat_gemini sample_env 100 (message_request "hi") fresh_state)
      = Ok (JObj [("message", JStr resp)])
    ∧ final_state
        (chat_gemini sample_env 100 (message_request "hi") fresh_state)
      = {| session := <["chatID" := chatID]> (session fresh_state);
           cache := <[chatID := {| payload := value;
                                   expires_at := 100 + 3600 |}]>
                      (cache fresh_state) |}.
Proof.
  apply (successful_send_persists sample_env 100 (message_request "hi")
           fresh_state).
  exists "tok1", 3600, sample_pickle. reflexivity.
Defined.

(** ** Reading back what a send stored *)

(** A live entry under the session's token whose bytes the client hands
    back as they are. *)
Lemma lookup_live_bytes env now c key value expires :
  c !! key = Some {| payload := value; expires_at := expires |} →
  now < expires →
  redis_get_fault env = None →
  decode_responses env = false ∨ utf8_valid value = false →
  as_fetched (cache_lookup env now c key) = Ok (PBytes value).
Proof.
  intros Hentry Hlive Hfault Hraw.
  unfold cache_lookup, client_decode. rewrite Hfault, Hentry. simpl.
  rewrite (proj2 (Z.ltb_lt _ _) Hlive).
  destruct (decode_responses env); [|done].
  destruct Hraw as [Hno|Hbad]; [done|by rewrite Hbad].
Qed.


Lemma nonempty_truthy (value : bytes) :
  value ≠ [] → py_truthy (PBytes value) = true.
Proof. by destruct value. Qed.

(** The listing when the fetch finds something to decode. *)
Lemma chat_history_list_fetched env now st chatID pickled :
  session st !! "chatID" = Some chatID →
  as_fetched (cache_lookup env now (cache st) chatID) = Ok pickled →
  py_truthy pickled = true →
  chat_history_list env now st
  = (match loads_outcome env pickled with
     | Ok h => Ok (JArr (map render_message h))
     | Raise e => Raise e
     end, st,
     [EvCacheGet chatID (cache_lookup env now (cache st) chatID);
      EvPickleLoads pickled (loads_outcome env pickled)]).
Proof.
  intros Hbound Hfetch Htruthy.
  unfold chat_history_list, session_contains, session_getitem, pickle_loads.
  unfold_monad. rewrite Hbound; simpl. rewrite Hbound; simpl.
  rewrite fetch_pickled_run, Hfetch, Htruthy; simpl.
  by destruct (loads_outcome env pickled).
Qed.


(** X6: a listing that follows a successful send within the hour shows
    the history that send encoded, turn by turn, provided the cache
    answers, its client hands the stored bytes back (it does not decode
    responses, or the bytes are not UTF-8 text), the bytes are not empty
    and the codec decodes them to that history. *)
Theorem listing_shows_what_send_stored env now req st env' now' h value :
  successful_send (chat_gemini env now req st) →
  In (EvPickleDumps h (Ok value)) (trace (chat_gemini env now req st)) →
  now' < now + 3600 →
  redis_get_fault env' = None →
  decode_responses env' = false ∨ utf8_valid value = false →
  value ≠ [] →
  codec_loads env' value = Ok h →
  outcome (chat_history_list env' now'
             (final_state (chat_gemini env now req st)))
  = Ok (JArr (map render_message h)).
Proof.
  intros Hdone Hdumps Hlive Hfault Hraw Hvalue Hloads.
  destruct (successful_send_inv _ _ _ _ Hdone)
    as (before & chatID & chat & query & resp & chat' & value'
        & Htoken & Hsend & Hdumps' & Hbefore & Hrun).
  rewrite Hrun in *. cbn [trace final_state fst snd] in *.
  apply in_app_or in Hdumps as [Hdumps|Hdumps];
    [by apply Hbefore in Hdumps|].
  destruct Hdumps as [Hd|[Hd|[Hd|[Hd|[]]]]]; try discriminate Hd.
  simplify_eq.
  set (st' := store_history now chatID value (bind_token chatID st)).
  assert (session st' !! "chatID" = Some chatID) as Hbound
    by apply lookup_insert_eq.
  assert (cache st' !! chatID
          = Some {| payload := value; expires_at := now + 3600 |})
    as Hentry by apply lookup_insert_eq.
  pose proof (lookup_live_bytes env' now' _ _ _ _ Hentry Hlive Hfault Hraw)
    as Hfetch.
  pose proof (nonempty_truthy _ Hvalue) as Htruthy.
  rewrite (chat_history_list_fetched _ _ _ _ _ Hbound Hfetch Htruthy).
  cbn [outcome fst loads_outcome]. by rewrite Hloads.
Qed.

Lemma listing_shows_what_send_stored_witness :
  outcome (chat_history_list sample_env 200
             (final_state (chat_gemini sample_env 100 (message_request "hi")
                             fresh_state)))
  = Ok (JArr (map render_message sample_history)).
Proof.
  apply (listing_shows_what_send_stored sample_env 100 (message_request "hi")
           fresh_state sample_env 200 sample_history sample_pickle).
  - exists "tok1", 3600, sample_pickle. reflexivity.
  - do 3 right. left. reflexivity.
  - reflexivity.
  - reflexivity.
  - right. reflexivity.
  - discriminate.
  - reflexivity.
Defined.


(** The send when the fetch finds a history to resume from. *)
Lemma resume_or_start_fetched env now query st chatID pickled h :
  session st !! "chatID" = Some chatID →
  as_fetched (cache_lookup env now (cache st) chatID) = Ok pickled →
  py_truthy pickled = true →
  loads_outcome env pickled = Ok h →
  ∃ rest,
    trace (resume_or_start env now query st)
    = EvCacheGet chatID (cache_lookup env now (cache st) chatID)
      :: EvPickleLoads pickled (Ok h)
      :: EvCreateChat (Some h) (backend_create_chat env (Some h)) :: rest
    ∧ match backend_create_chat env (Some h) with
      | Ok (_, chat) =>
        rest = trace (send_and_persist env now chatID chat query st)
      | Raise _ => rest = []
      end.
Proof.
  intros Hbound Hfetch Htruthy Hloads.
  unfold resume_or_start, session_contains, session_getitem, pickle_loads,
    create_chat.
  unfold_monad. rewrite Hbound; simpl. rewrite Hbound; simpl.
  rewrite fetch_pickled_run, Hfetch, Htruthy, Hloads; simpl.
  destruct (backend_create_chat env (Some h)) as [[fresh chat]|e]; simpl;
    [|eexists; split; reflexivity].
  destruct (send_and_persist env now chatID chat query st) as [[r st'] t].
  eexists; split; reflexivity.
Qed.

Lemma caught_keeps_trace run ev :
  In ev (trace run) → In ev (trace (caught run)).
Proof.
  destruct run as [[[j|e] st] t]; [done|].
  destruct e; simpl; rewrite ?in_app_iff; auto.
Qed.

(** X7: the send that follows a successful send within the hour resumes
    from it: under the same conditions on the cache and the codec as for
    the listing, and with a body that passes the checks, it asks the chat
    backend for a chat that starts from the history the first send
    encoded, and sends the new query to that chat. *)
Theorem next_send_resumes_from_what_send_stored
    env now req st env' now' req' query h value :
  successful_send (chat_gemini env now req st) →
  In (EvPickleDumps h (Ok value)) (trace (chat_gemini env now req st)) →
  now' < now + 3600 →
  redis_get_fault env' = None →
  decode_responses env' = false ∨ utf8_valid value = false →
  value ≠ [] →
  codec_loads env' value = Ok h →
  query_of "message" req' = Some query →
  In (EvCreateChat (Some h) (backend_create_chat env' (Some h)))
     (trace (chat_gemini env' now' req'
               (final_state (chat_gemini env now req st))))
  ∧ ∀ fresh chat,
      backend_create_chat env' (Some h) = Ok (fresh, chat) →
      In (EvSendMessage chat query (backend_send_message env' chat query))
         (trace (chat_gemini env' now' req'
                   (final_state (chat_gemini env now req st)))).
Proof.
  intros Hdone Hdumps Hlive Hfault Hraw Hvalue Hloads Hquery.
  destruct (successful_send_inv _ _ _ _ Hdone)
    as (before & chatID & chat0 & query0 & resp & chat' & value'
        & Htoken & Hsend & Hdumps' & Hbefore & Hrun).
  rewrite Hrun in *. cbn [trace final_state fst snd] in *.
  apply in_app_or in Hdumps as [Hdumps|Hdumps];
    [by apply Hbefore in Hdumps|].
  destruct Hdumps as [Hd|[Hd|[Hd|[Hd|[]]]]]; try discriminate Hd.
  simplify_eq.
  set (st' := store_history now chatID value (bind_token chatID st)).
  assert (session st' !! "chatID" = Some chatID) as Hbound
    by apply lookup_insert_eq.
  assert (cache st' !! chatID
          = Some {| payload := value; expires_at := now + 3600 |})
    as Hentry by apply lookup_insert_eq.
  pose proof (lookup_live_bytes env' now' _ _ _ _ Hentry Hlive Hfault Hraw)
    as Hfetch.
  pose proof (nonempty_truthy _ Hvalue) as Htruthy.
  destruct (resume_or_start_fetched env' now' query st' chatID _ h
              Hbound Hfetch Htruthy Hloads) as (rest & Htrace & Hrest).
  pose proof (chat_gemini_try_checked env' now' req' st') as Htry.
  rewrite Hquery in Htry.
  rewrite chat_gemini_caught, Htry.
  split.
  - apply caught_keeps_trace. rewrite Htrace. simpl. auto.
  - intros fresh chat Hchat. rewrite Hchat in Hrest. subst rest.
    apply caught_keeps_trace. rewrite Htrace. do 3 right.
    pose proof (send_and_persist_runs env' now' chatID chat query st')
      as Hpersist.
    destruct (send_and_persist env' now' chatID chat query st')
      as [[res st''] t].
    inversion Hpersist; subst; left;
      match goal with
      | H : backend_send_message _ _ _ = _ |- _ => by rewrite H
      end.
Qed.

Lemma next_send_resumes_from_what_send_stored_witness :
  In (EvCreateChat (Some sample_history)
        (backend_create_chat sample_env (Some sample_history)))
     (trace (chat_gemini sample_env 200 (message_request "and then?")
               (final_state (chat_gemini sample_env 100
                               (message_request "hi") fresh_state))))
  ∧ ∀ fresh chat,
      backend_create_chat sample_env (Some sample_history)
      = Ok (fresh, chat) →
      In (EvSendMessage chat (JStr "and then?")
            (backend_send_message sample_env chat (JStr "and then?")))
         (trace (chat_gemini sample_env 200 (message_request "and then?")
                   (final_state (chat_gemini sample_env 100
                                   (message_request "hi") fresh_state)))).
Proof.
  apply (next_send_resumes_from_what_send_stored sample_env 100
           (message_request "hi") fresh_state sample_env 200
           (message_request "and then?") (JStr "and then?")
           sample_history sample_pickle).
  - exists "tok1", 3600, sample_pickle. reflexivity.
  - do 3 right. left. reflexivity.
  - reflexivity.
  - reflexivity.
  - right. reflexivity.
  - discriminate.
  - reflexivity.
  - reflexivity.
Defined.

(** ** After the hour *)









(** ** The listing *)

(** X10: [GET /api/chat/list] only reads: it leaves session and cache as
    they are, its only calls are the fetch and [pickle.loads], and the
    same listing asked again in the same world at the same instant gives
    the same run. *)
Theorem listing_is_read_only env now st :
  final_state (chat_history_list env now st) = st
  ∧ Forall (λ ev, is_backend_call ev = false
                  ∧ is_cache_write ev = false
                  ∧ is_session_bind ev = false)
           (trace (chat_history_list env now st))
  ∧ chat_history_list env now (final_state (chat_history_list env now st))
    = chat_history_list env now st.
Proof.
  pose proof (chat_history_list_runs env now st) as Hrun.
  destruct (chat_history_list env now st) as [[r st'] t] eqn:Hlist.
  assert (st' = st) as -> by (by invert_runs).
  split; [done|]. split; [|done].
  invert_runs; repeat (constructor; try done).
Qed.

(** ** [POST /api/summarize] *)

(** The [try] block of [summarize] after its two checks. *)
Lemma summarize_try_checked env req :
  match query_of "url" req with
  | Some url =>
    ∀ st,
      summarize_try env req st
      = match backend_create_chat env None with
        | Raise e => (Raise e, st, [EvCreateChat None (Raise e)])
        | Ok (fresh, chat) =>
          let prompt :=
            JStr ("Please summarize this URL in 50 words: "
                  +:+ py_str env url) in
          (match backend_send_message env chat prompt with
           | Ok (summ, _) => Ok (JObj [("summary", JStr summ)])
           | Raise e => Raise e
           end, st,
           [EvCreateChat None (Ok (fresh, chat));
            EvSendMessage chat prompt
              (backend_send_message env chat prompt)])
        end
  | None => ∃ e, ∀ st, summarize_try env req st = (Raise e, st, [])
  end.
Proof.
  unfold query_of, summarize_try, get_json, dict_get, create_chat,
    send_message.
  destruct (req_body req) as [| |rjson]; unfold_monad; simpl;
    [by eexists..|].
  destruct rjson as [|b|n|f|s|xs|items]; simpl; [by eexists|..].
  1-5: match goal with
       | |- context [negb ?b] => destruct b; simpl; by eexists
       | |- context [match ?l with [] => _ | _ => _ end] =>
         destruct l; simpl; by eexists
       end.
  destruct items as [|item items]; [simpl; by eexists|].
  generalize (items_get (item :: items) "url"); intros url.
  cbn [truthy negb].
  destruct (truthy url); simpl; [|by eexists].
  intros st.
  destruct (backend_create_chat env None) as [[fresh chat]|e]; [|done].
  simpl.
  by destruct (backend_send_message env chat _) as [[summ chat']|e].
Qed.

Lemma summarize_caught env req st :
  summarize env req st
  = match summarize_try env req st with
    | (Ok j, st', t) => (Ok j, st', t)
    | (Raise e, st', t) => (Ok SUMMARIZE_ERROR, st', t ++ [EvLogException e])
    end.
Proof.
  unfold summarize, summarize_except, logging_exception. unfold_monad.
  by destruct (summarize_try env req st) as [[[j|e] st'] t].
Qed.

(** X11: the summarize view is stateless and never lets an exception out:
    for a given world and request there is one JSON answer and one trace,
    whatever the session and the cache; it answers with status 200, leaves
    session and cache as they are and makes no call to the cache and no
    bind of the session. *)
Theorem summarize_is_stateless env req :
  ∃ j t,
    (∀ st, summarize env req st = (Ok j, st, t))
    ∧ make_response (Ok j) = JsonResponse 200 j
    ∧ Forall (λ ev, is_cache_call ev = false ∧ is_session_bind ev = false) t.
Proof.
  pose proof (summarize_try_checked env req) as Htry.
  destruct (query_of "url" req) as [url|].
  - destruct (backend_create_chat env None) as [[fresh chat]|e].
    + simpl in Htry.
      destruct (backend_send_message env chat _) as [[summ chat']|e].
      * do 2 eexists. split; [|split; [done|]].
        -- intros st. by rewrite summarize_caught, Htry.
        -- repeat (constructor; try done).
      * do 2 eexists. split; [|split; [done|]].
        -- intros st. by rewrite summarize_caught, Htry.
        -- repeat (constructor; try done).
    + do 2 eexists. split; [|split; [done|]].
      * intros st. by rewrite summarize_caught, Htry.
      * repeat (constructor; try done).
  - destruct Htry as [e He].
    do 2 eexists. split; [|split; [done|]].
    + intros st. by rewrite summarize_caught, He.
    + repeat (constructor; try done).
Qed.



(** ** The retry delay, in general *)

(** X13: the delay of the 429 message is the number of whole seconds from
    now to the reset, rounded down, taken modulo one day: whole days are
    dropped, and a reset that lies in the past wraps around. *)
Theorem retry_delta_closed_form now reset :
  retry_delta now reset
  = ((reset - now) / US_PER_SECOND) mod SECONDS_PER_DAY.
Proof.
  unfold retry_delta, timedelta_of_us, seconds.
  rewrite (Z.mul_comm SECONDS_PER_DAY US_PER_SECOND).
  unfold US_PER_SECOND, SECONDS_PER_DAY.
  rewrite Z.rem_mul_r by lia.
  rewrite (Z.mul_comm 1000000), Z.div_add by lia.
  rewrite (Z.div_small ((reset - now) mod 1000000)); [lia|].
  apply Z.mod_pos_bound. lia.
Qed.

(** X14: when the window has already been reset, by up to a day, the
    message does not say 0 seconds but counts down from a day: 86399
    seconds when the reset is at most one second old. *)
Theorem retry_delay_wraps_when_reset_has_passed now reset :
  reset < now →
  now - reset ≤ 86400 * US_PER_SECOND →
  retry_delta now reset = 86399 - (now - reset - 1) / US_PER_SECOND
  ∧ (now - reset ≤ US_PER_SECOND → retry_delta now reset = 86399).
Proof.
  intros Hpast Hday. rewrite retry_delta_eq. unfold US_PER_SECOND in *.
  assert (retry_delta_value :
            ((reset - now) mod 86400000000) / 1000000
            = 86399 - (now - reset - 1) / 1000000).
  { Z.to_euclidean_division_equations. lia. }
  split; [done|].
  intros Hsecond. rewrite retry_delta_value.
  rewrite Z.div_small by lia. lia.
Qed.

Lemma retry_delay_wraps_when_reset_has_passed_witness :
  retry_delta 11000000 10500000 = 86399 - (11000000 - 10500000 - 1) / US_PER_SECOND
  ∧ (11000000 - 10500000 ≤ US_PER_SECOND →
     retry_delta 11000000 10500000 = 86399).
Proof.
  apply (retry_delay_wraps_when_reset_has_passed 11000000 10500000).
  - lia.
  - unfold US_PER_SECOND. lia.
Defined.

(** ** The proxied endpoints *)


(** X16: the fireball map view answers 200 exactly when the upstream
    client delivers bytes that are well-formed UTF-8, and then with their
    text under ["html"]; an exception of the client and the decoding error
    both leave the view, which has no except clause. *)
Theorem fireball_map_answers_iff_utf8 up :
  ((∃ j, make_response (fireball_map up) = JsonResponse 200 j)
   ↔ ∃ raw, nasa_fireball_map up = Ok raw ∧ utf8_valid raw = true)
  ∧ match nasa_fireball_map up with
    | Ok raw =>
      if utf8_valid raw
      then fireball_map up
           = Ok (JObj [("html", JStr (String.string_of_list_byte raw))])
      else fireball_map up = Raise (UnicodeDecodeError raw)
    | Raise e => fireball_map up = Raise e
    end.
Proof.
  unfold fireball_map, decode_utf8.
  destruct (nasa_fireball_map up) as [raw|e].
  - destruct (utf8_valid raw) eqn:Hvalid; simpl.
    + split; [|done]. split; eauto.
    + split; [|done]. split.
      * by intros [j Hj].
      * intros (raw' & [= <-] & Hvalid'). congruence.
  - split; [|done]. split.
    + intros [j Hj]. by destruct e.
    + by intros (raw & Hraw & _).
Qed.

(** ** A write that fails *)

(** X17: when the cache write of a send fails, the reply the chat backend
    has already given is lost: the visitor gets the out-of-service
    message, the exception is logged, the cache is as before, but the
    session is bound to the token all the same (for a new visitor, a token
    without a cache entry). *)
Theorem failed_write_loses_the_reply env now req st chatID ttl value e :
  In (EvCacheSetex chatID ttl value (Raise e))
     (trace (chat_gemini env now req st)) →
  outcome (chat_gemini env now req st) = Ok OUT_OF_SERVICE
  ∧ In (EvLogException e) (trace (chat_gemini env now req st))
  ∧ (∃ chat query resp chat',
       In (EvSendMessage chat query (Ok (resp, chat')))
          (trace (chat_gemini env now req st)))
  ∧ session (final_state (chat_gemini env now req st))
    = <["chatID" := chatID]> (session st)
  ∧ cache (final_state (chat_gemini env now req st)) = cache st.
Proof.
  intros Hwrite.
  send_cases env now req st; split_trace.
  all: repeat split; simpl; eauto 12.
Qed.

Lemma failed_write_loses_the_reply_witness :
  outcome (chat_gemini env_cache_down 100 (message_request "hi") fresh_state)
  = Ok OUT_OF_SERVICE
  ∧ In (EvLogException (OtherError "ConnectionError"))
       (trace (chat_gemini env_cache_down 100 (message_request "hi")
                 fresh_state))
  ∧ (∃ chat query resp chat',
       In (EvSendMessage chat query (Ok (resp, chat')))
          (trace (chat_gemini env_cache_down 100 (message_request "hi")
                    fresh_state)))
  ∧ session (final_state (chat_gemini env_cache_down 100
                            (message_request "hi") fresh_state))
    = <["chatID" := "tok1"]> (session fresh_state)
  ∧ cache (final_state (chat_gemini env_cache_down 100
                          (message_request "hi") fresh_state))
    = cache fresh_state.
Proof.
  apply (failed_write_loses_the_reply env_cache_down 100
           (message_request "hi") fresh_state "tok1" 3600 sample_pickle
           (OtherError "ConnectionError")).
  do 4 right. left. reflexivity.
Defined.
